(** * Kattis task type and Kattis package loader: a shallow embedding

    Sources embedded here:
    - [cms/grading/tasktypes/Kattis.py]  (class [Kattis])
    - [cmscontrib/loaders/kattis.py]     (class [KattisLoader])

    Python floats are IEEE doubles: they are modelled by Rocq's primitive
    floats.  Exceptions are modelled by an error monad; the orchestrators
    run in a state-and-error monad over a mutable world (host file system,
    job record, trace of calls made to the process launcher). *)

From Stdlib Require Import Floats.PrimFloat Ascii String.
From stdpp Require Import gmap strings list fin_maps pretty.

Set Warnings "-register-all".

Open Scope string_scope.

(** ** Python runtime *)

Module Py.

(** The exceptions the embedded code can raise. *)
Inductive exn : Type :=
| NameError (name : string)
| IndexError
| TypeError
| KeyError (key : string)
| ValueError
| StopIteration
| FileNotFoundError (path : string)
| IsADirectoryError (path : string)
| NotADirectoryError (path : string)
| OSError (path : string)
| YAMLError.

(** A computation that returns or raises. *)
Inductive result (A : Type) : Type :=
| Ok (a : A)
| Raise (e : exn).
Arguments Ok {A} a.
Arguments Raise {A} e.

Definition bind {A B} (r : result A) (k : A -> result B) : result B :=
  match r with
  | Ok a => k a
  | Raise e => Raise e
  end.

(** Values stored in the statistics dictionaries. *)
Inductive value : Type :=
| VNone
| VInt (z : Z)
| VFloat (f : float)
| VStr (s : string).

(** [float(n)] for an integer [n] (exact while [|n| < 2^53]). *)
Fixpoint float_of_pos (p : positive) : float :=
  match p with
  | xH => PrimFloat.one
  | xO q => PrimFloat.mul PrimFloat.two (float_of_pos q)
  | xI q => PrimFloat.add (PrimFloat.mul PrimFloat.two (float_of_pos q))
                          PrimFloat.one
  end.

Definition float_of_Z (n : Z) : float :=
  match n with
  | Z0 => PrimFloat.zero
  | Zpos p => float_of_pos p
  | Zneg p => PrimFloat.opp (float_of_pos p)
  end.

(** [v == n] for an integer literal [n]. *)
Definition eq_int (v : value) (n : Z) : bool :=
  match v with
  | VInt z => bool_decide (z = n)
  | VFloat f => PrimFloat.eqb f (float_of_Z n)
  | _ => false
  end.

(** [v in [n1, n2, ...]] for integer literals. *)
Definition in_ints (v : value) (ns : list Z) : bool :=
  existsb (eq_int v) ns.

(** [d[k]] on a dictionary with string keys. *)
Definition getitem {V} (d : gmap string V) (k : string) : result V :=
  match d !! k with
  | Some v => Ok v
  | None => Raise (KeyError k)
  end.

(** [l[-1]] on a list. *)
Definition last_item {A} (l : list A) : result A :=
  match last l with
  | Some a => Ok a
  | None => Raise IndexError
  end.

(** [l[:-1]] on a list. *)
Definition but_last {A} (l : list A) : list A := take (length l - 1) l.

(** [max(a, b)] on floats: the first argument is kept unless the second
    compares strictly greater. *)
Definition max (a b : float) : float := if PrimFloat.ltb a b then b else a.

(** [list(s)] for a string: its characters, each as a one-character string;
    this is what [l.extend(s)] adds to a list [l]. *)
Fixpoint chars (s : string) : list string :=
  match s with
  | EmptyString => []
  | String c r => String c EmptyString :: chars r
  end.

End Py.

#[export] Instance result_ret : MRet Py.result := @Py.Ok.
#[export] Instance result_bind : MBind Py.result := fun A B k r => Py.bind r k.
#[export] Instance result_fmap : FMap Py.result :=
  fun A B f r => Py.bind r (fun a => Py.Ok (f a)).

(** ** Host file system, [os] and [os.path] *)

Module Os.

Inductive node : Type :=
| File (content : string)
| Dir
| Fifo.

(** [os.path.join(a, b)] for POSIX paths. *)
Definition join (a b : string) : string :=
  if String.prefix "/" b then b
  else if decide (a = "") then b
  else if String.eqb (String.substring (String.length a - 1) 1 a) "/"
       then a ++ b
       else a ++ "/" ++ b.

(** [os.path.exists(p)] *)
Definition exists_ (fs : gmap string node) (p : string) : bool :=
  bool_decide (is_Some (fs !! p)).

(** [os.path.isfile(p)] *)
Definition isfile (fs : gmap string node) (p : string) : bool :=
  match fs !! p with
  | Some (File _) => true
  | _ => false
  end.

(** [open(p).read()].  A FIFO is never opened by the embedded code: the
    only reads follow an [isfile] test or address package files. *)
Definition read (fs : gmap string node) (p : string) : Py.result string :=
  match fs !! p with
  | Some (File c) => Py.Ok c
  | Some Dir => Py.Raise (Py.IsADirectoryError p)
  | Some Fifo => Py.Raise (Py.OSError p)
  | None => Py.Raise (Py.FileNotFoundError p)
  end.

(** [p] is [d] itself or lies below [d]. *)
Definition under (d p : string) : bool :=
  bool_decide (p = d) || String.prefix (d ++ "/") p.

(** [rmtree(d)]: the directory and everything below it disappear. *)
Definition rmtree (fs : gmap string node) (d : string)
  : Py.result (gmap string node) :=
  if exists_ fs d
  then Py.Ok (filter (fun kv => negb (under d kv.1)) fs)
  else Py.Raise (Py.FileNotFoundError d).

(** Candidate names of [tempfile.mkdtemp]. *)
Definition tmp_name (dir : string) (n : nat) : string :=
  join dir ("tmp" ++ pretty n).

(** [tempfile.mkdtemp(dir=dir)] picks a name that does not exist yet: the
    first free candidate (among [size fs + 1] candidates one is free). *)
Definition mkdtemp_path (fs : gmap string node) (dir : string) : string :=
  match List.find (fun n => negb (exists_ fs (tmp_name dir n)))
                  (seq 0 (S (size fs))) with
  | Some n => tmp_name dir n
  | None => tmp_name dir (S (size fs))
  end.

(** The name of [p] inside the directory [d], when [p] is an entry of it. *)
Definition child_name (d p : string) : option string :=
  if String.prefix (d ++ "/") p then
    let name :=
      String.substring (String.length d + 1)
                       (String.length p - (String.length d + 1)) p in
    if decide (name = "") then None
    else if bool_decide ("/"%char ∈ list_ascii_of_string name) then None
    else Some name
  else None.

(** [os.listdir(d)] *)
Definition listdir (fs : gmap string node) (d : string)
  : Py.result (list string) :=
  match fs !! d with
  | Some Dir => Py.Ok (omap (child_name d) (fst <$> map_to_list fs))
  | Some _ => Py.Raise (Py.NotADirectoryError d)
  | None => Py.Raise (Py.FileNotFoundError d)
  end.

(** The characters after the last separator of a reversed path, in path
    order. *)
Fixpoint tail_rev (l : list ascii) (acc : list ascii) : list ascii :=
  match l with
  | [] => acc
  | c :: r => if Ascii.eqb c "/" then acc else tail_rev r (c :: acc)
  end.

(** [os.path.split(p)[1]] *)
Definition split_tail (p : string) : string :=
  string_of_list_ascii (tail_rev (rev (list_ascii_of_string p)) []).

End Os.

(** ** The Kattis task type ([cms/grading/tasktypes/Kattis.py]) *)

Module Kattis.

(** A statistics dictionary, as built by the sandbox layer. *)
Abbreviation stats := (gmap string Py.value).

(** The triple returned by [evaluation_step_after_run]:
    [(box_success, evaluation_success, stats)]. *)
Record step_result : Type := StepResult {
  box_success : bool;
  evaluation_success : bool;
  step_stats : option stats
}.

(** The fields of the job record the task type reads and writes. *)
Record Job : Type := mkJob {
  language : string;
  time_limit : float;
  memory_limit : Z;
  input : string;
  output : string;
  executables : list (string * string);
  managers : list (string * string);
  sandboxes : list string;
  multithreaded_sandbox : bool;
  only_execution : bool;
  keep_sandbox : bool;
  success : option bool;
  outcome : option string;
  text : option (list string);
  plus : option stats
}.

(** A sandbox handle: the object returned by [create_sandbox]. *)
Record sandbox : Type := Sandbox { sandbox_name : string }.

(** A started process: the object returned by
    [evaluation_step_before_run]. *)
Record process : Type := Process {
  process_sandbox : sandbox;
  process_dirs_map : list (string * (string * string))
}.

(** Calls made to the external collaborators, in order. *)
Inductive event : Type :=
| CreateSandbox (name : string)
| CreateFile (sb : sandbox) (filename digest : string) (executable : bool)
| TrustedStep (sb : sandbox) (commands : list (list string))
| StartProcess (sb : sandbox) (command : list string)
    (time_limit : float) (memory_limit : Z)
    (dirs_map : list (string * (string * string)))
    (stdin_redirect stdout_redirect : option string) (multiprocess : bool)
| Wait (sbs : list sandbox)
| Collect (sb : sandbox)
| DeleteSandbox (sb : sandbox) (success : option bool) (keep : bool).

(** The mutable world of one evaluation. *)
Record World : Type := mkWorld {
  fs : gmap string Os.node;
  job : Job;
  trace : list event
}.

(** What lies outside this file: configuration, message catalogue, Python
    builtins, the language manager, the helpers of the task type package,
    and the behaviour of the sandboxed processes. *)
Record Env : Type := mkEnv {
  (* cms.config *)
  temp_dir : string;
  trusted_sandbox_max_time_s : float;
  trusted_sandbox_max_memory_kib : Z;
  config_keep_sandbox : bool;
  (* EVALUATION_MESSAGES.get(k).message and human_evaluation_message *)
  EVALUATION_MESSAGES : string -> string;
  human_evaluation_message : stats -> list string;
  (* float(s), None when it raises ValueError; "%s" % f *)
  float_of_string : string -> option float;
  str_of_float : float -> string;
  (* get_language(l).get_evaluation_commands(exe, main=main, args=args) *)
  get_evaluation_commands :
    string -> string -> string -> list string -> list (list string);
  (* check_executables_number(job, n), check_manager_present(job, name):
     the verdict and the job as they leave it *)
  check_executables_number : Job -> Z -> bool * Job;
  check_manager_present : Job -> string -> bool * Job;
  (* sandbox.get_root_path() *)
  get_root_path : sandbox -> string;
  (* the files a process leaves below the directories of its sandbox:
     (directory inside the sandbox, file name, content) *)
  process_writes : sandbox -> list (string * string * string);
  (* evaluation_step_after_run(sandbox) *)
  evaluation_step_after_run : sandbox -> step_result
}.

(** State-and-error monad of the orchestrators. *)
Definition M (A : Type) : Type := World -> Py.result A * World.

Definition ret {A} (a : A) : M A := fun w => (Py.Ok a, w).

Definition raise {A} (e : Py.exn) : M A := fun w => (Py.Raise e, w).

Definition bindM {A B} (m : M A) (k : A -> M B) : M B :=
  fun w =>
    match m w with
    | (Py.Ok a, w') => k a w'
    | (Py.Raise e, w') => (Py.Raise e, w')
    end.

Notation "'let*' x ':=' c 'in' k" := (bindM c (fun x => k))
  (at level 10, x pattern, c at level 100, k at level 200).

Definition lift {A} (r : Py.result A) : M A := fun w => (r, w).

Definition get_job : M Job := fun w => (Py.Ok (job w), w).

Definition put_job (j : Job) : M unit :=
  fun w => (Py.Ok tt, mkWorld (fs w) j (trace w)).

Definition get_fs : M (gmap string Os.node) := fun w => (Py.Ok (fs w), w).

Definition put_fs (f : gmap string Os.node) : M unit :=
  fun w => (Py.Ok tt, mkWorld f (job w) (trace w)).

Definition emit (e : event) : M unit :=
  fun w => (Py.Ok tt, mkWorld (fs w) (job w) (trace w ++ [e])).

(** Running a computation: its result, and the world it leaves. *)
Definition result_of {A} (m : M A) (w : World) : Py.result A := fst (m w).

Definition world_after {A} (m : M A) (w : World) : World := snd (m w).

(** Names bound at module level in [Kattis.py]: the imports and the
    definitions of the module.  A name used in a method and assigned
    nowhere in it is looked up here (no Python builtin has a one-letter
    name). *)
Definition module_globals : list string :=
  ["logging"; "os"; "tempfile"; "reduce"; "config"; "rmtree"; "Executable";
   "ParameterTypeChoice"; "ParameterTypeInt"; "wait_without_std"; "Sandbox";
   "LANGUAGES"; "get_language"; "compilation_step";
   "evaluation_step_before_run"; "evaluation_step_after_run";
   "extract_outcome_and_text"; "human_evaluation_message";
   "merge_execution_stats"; "trusted_step"; "EVALUATION_MESSAGES";
   "check_files_number"; "TaskType"; "check_executables_number";
   "check_manager_present"; "create_sandbox"; "delete_sandbox";
   "is_manager_for_compilation"; "logger"; "N_"; "Kattis"].

(** Reading a global name. *)
Definition load_global (name : string) : M unit :=
  if bool_decide (name ∈ module_globals) then ret tt
  else raise (Py.NameError name).

(** [sb[i]]: a sandbox handle is a single object, it has no items. *)
Definition sandbox_getitem (sb : sandbox) : M sandbox := raise Py.TypeError.

(** The characters of a reversed path up to the last separator. *)
Fixpoint until_sep (l : list ascii) : list ascii :=
  match l with
  | [] => []
  | c :: r => if Ascii.eqb c "/" then [] else c :: until_sep r
  end.

(** [os.path.splitext(p)[0]]: the path without its extension; the last dot
    of the base name starts an extension unless only dots precede it. *)
Fixpoint splitext_scan (rev_name : list ascii) : option (list ascii) :=
  match rev_name with
  | [] => None
  | c :: r =>
      if Ascii.eqb c "/" then None
      else if Ascii.eqb c "."
           then if forallb (fun d => Ascii.eqb d ".")
                           (until_sep r)
                then None else Some r
           else splitext_scan r
  end.

Definition splitext_root (p : string) : string :=
  match splitext_scan (rev (list_ascii_of_string p)) with
  | Some r => string_of_list_ascii (rev r)
  | None => p
  end.

Section WithEnv.

Variable env : Env.

Definition MANAGER_FILENAME : string := "manager".
Definition INPUT_FILENAME : string := "input.txt".
Definition ANSWER_FILENAME : string := "answer.txt".

(** Dummy function to mark translatable string. *)
Definition N_ (message : string) : string := message.

(** [stats[k]] where [stats] may be [None]. *)
Definition subscript (st : option stats) (k : string) : Py.result Py.value :=
  match st with
  | Some d => Py.getitem d k
  | None => Py.Raise Py.TypeError
  end.

(** [float(s)] *)
Definition py_float (s : string) : Py.result float :=
  match float_of_string env s with
  | Some f => Py.Ok f
  | None => Py.Raise Py.ValueError
  end.

(** [Kattis._extract_outcome] *)
Definition _extract_outcome (st : option stats) (feedbackdir : string)
  : M (option float * option (list string)) :=
  let* exit_code := lift (subscript st "exit_code") in
  let score_multiplier_file := Os.join feedbackdir "score_multiplier.txt" in
  if negb (Py.in_ints exit_code [42; 43]%Z) then ret (None, None)
  else
    let text := EVALUATION_MESSAGES env "wrong" in
    if Py.eq_int exit_code 43 then ret (Some 0%float, Some [text])
    else
      let* files := get_fs in
      if Os.isfile files score_multiplier_file then
        let* content := lift (Os.read files score_multiplier_file) in
        let* outcome := lift (py_float content) in
        let text :=
          if PrimFloat.ltb 0 outcome && PrimFloat.ltb outcome 1
          then EVALUATION_MESSAGES env "partial"
          else EVALUATION_MESSAGES env "success" in
        ret (Some outcome, Some [text])
      else
        let text := EVALUATION_MESSAGES env "success" in
        ret (Some 1%float, Some [text]).

(** The assignments that close [_get_results]. *)
Definition fill_results (j : Job) (success : bool) (outcome : option float)
    (text : option (list string)) (stats_user : option stats) : Job :=
  {| language := language j; time_limit := time_limit j;
     memory_limit := memory_limit j; input := input j; output := output j;
     executables := executables j; managers := managers j;
     sandboxes := sandboxes j;
     multithreaded_sandbox := multithreaded_sandbox j;
     only_execution := only_execution j; keep_sandbox := keep_sandbox j;
     success := Some success;
     outcome := str_of_float env <$> outcome;
     text := text;
     plus := stats_user |}.

(** [evaluation_step_after_run(sandbox)] *)
Definition collect (sb : sandbox) : M step_result :=
  let* _ := emit (Collect sb) in
  ret (evaluation_step_after_run env sb).

(** [Kattis._get_results] *)
Definition _get_results (feedback_dir : string)
    (sandbox_user sandbox_mgr : sandbox) : M unit :=
  let* r_mgr := collect sandbox_mgr in
  let box_success_mgr := box_success r_mgr in
  let stats_mgr := step_stats r_mgr in
  let* evaluation_success_mgr :=
    (if box_success_mgr then
       let* code := lift (subscript stats_mgr "exit_code") in
       ret (if Py.in_ints code [42; 43]%Z then true
            else evaluation_success r_mgr)
     else ret (evaluation_success r_mgr)) in
  let* user_result := collect sandbox_user in
  let box_success_user := box_success user_result in
  let evaluation_success_user := evaluation_success user_result in
  let stats_user := step_stats user_result in
  let success :=
    box_success_user && box_success_mgr && evaluation_success_mgr in
  let* j := get_job in
  let* (outcome, text, stats_user) :=
    (if negb success then ret (None, None, None)
     else if only_execution j then
       ret (Some 0%float, Some [N_ "Execution completed successfully"],
            stats_user)
     else if negb evaluation_success_user then
       match stats_user with
       | Some su =>
           ret (Some 0%float, Some (human_evaluation_message env su),
                stats_user)
       | None => raise Py.TypeError
       end
     else
       let* (outcome, text) := _extract_outcome stats_mgr feedback_dir in
       ret (outcome, text, stats_user)) in
  put_job (fill_results j success outcome text stats_user).

(** *** Calls to the collaborators

    A call to the sandbox layer is recorded in the trace and returns; the
    failures of that layer itself are not modelled. *)

(** [tempfile.mkdtemp(dir=config.temp_dir)] *)
Definition mkdtemp : M string :=
  let* files := get_fs in
  let p := Os.mkdtemp_path files (temp_dir env) in
  let* _ := put_fs (<[p := Os.Dir]> files) in
  ret p.

(** [os.mkfifo(p)], called for names inside the directory [mkdtemp] has
    just created, where no name is taken. *)
Definition mkfifo (p : string) : M unit :=
  let* files := get_fs in
  put_fs (<[p := Os.Fifo]> files).

(** [rmtree(d)] *)
Definition rmtree (d : string) : M unit :=
  let* files := get_fs in
  let* files' := lift (Os.rmtree files d) in
  put_fs files'.

Definition set_sandboxes (j : Job) (l : list string) : Job :=
  {| language := language j; time_limit := time_limit j;
     memory_limit := memory_limit j; input := input j; output := output j;
     executables := executables j; managers := managers j;
     sandboxes := l;
     multithreaded_sandbox := multithreaded_sandbox j;
     only_execution := only_execution j; keep_sandbox := keep_sandbox j;
     success := success j; outcome := outcome j; text := text j;
     plus := plus j |}.

(** [job.sandboxes.append(x)] *)
Definition sandboxes_append (x : string) : M unit :=
  let* j := get_job in
  put_job (set_sandboxes j (sandboxes j ++ [x])).

(** [job.sandboxes.extend(x)] with [x] a string: its characters are added
    one by one. *)
Definition sandboxes_extend (x : string) : M unit :=
  let* j := get_job in
  put_job (set_sandboxes j (sandboxes j ++ Py.chars x)).

(** [create_sandbox(file_cacher, name=name)] *)
Definition create_sandbox (name : string) : M sandbox :=
  let* _ := emit (CreateSandbox name) in
  ret (Sandbox name).

(** [sandbox.create_file_from_storage(filename, digest, executable)] *)
Definition create_file_from_storage (sb : sandbox) (filename digest : string)
    (executable : bool) : M unit :=
  emit (CreateFile sb filename digest executable).

(** [trusted_step(sandbox, commands)] *)
Definition trusted_step (sb : sandbox) (commands : list (list string))
  : M unit :=
  emit (TrustedStep sb commands).

(** [evaluation_step_before_run(sandbox, command, time_limit, memory_limit,
    dirs_map, stdin_redirect, stdout_redirect, multiprocess)] *)
Definition evaluation_step_before_run (sb : sandbox) (command : list string)
    (time_limit : float) (memory_limit : Z)
    (dirs_map : list (string * (string * string)))
    (stdin_redirect stdout_redirect : option string) (multiprocess : bool)
  : M process :=
  let* _ := emit (StartProcess sb command time_limit memory_limit dirs_map
                               stdin_redirect stdout_redirect multiprocess) in
  ret (Process sb dirs_map).

(** The host directory mounted read-write at [d] inside the sandbox. *)
Definition host_dir (dirs_map : list (string * (string * string)))
    (d : string) : option string :=
  fst <$> List.find (fun m => String.eqb (fst (snd m)) d
                              && String.eqb (snd (snd m)) "rw") dirs_map.

(** The files a finished process leaves on the host. *)
Definition apply_writes (p : process) (files : gmap string Os.node)
  : gmap string Os.node :=
  foldl (fun acc w =>
           match host_dir (process_dirs_map p) (fst (fst w)) with
           | Some h => <[Os.join h (snd (fst w)) := Os.File (snd w)]> acc
           | None => acc
           end)
        files (process_writes env (process_sandbox p)).

(** [wait_without_std(procs)]: returns when every process has finished. *)
Definition wait_without_std (procs : list process) : M unit :=
  let* _ := emit (Wait (process_sandbox <$> procs)) in
  let* files := get_fs in
  put_fs (foldl (fun acc p => apply_writes p acc) files procs).

(** [delete_sandbox(sandbox, success, keep_sandbox)] *)
Definition delete_sandbox (sb : sandbox) (success : option bool)
    (keep : bool) : M unit :=
  emit (DeleteSandbox sb success keep).

(** [next(iter(d.keys()))] *)
Definition first_key (d : list (string * string)) : Py.result string :=
  match d with
  | (k, _) :: _ => Py.Ok k
  | [] => Py.Raise Py.StopIteration
  end.

(** [d[k].digest] *)
Definition digest_of (d : list (string * string)) (k : string)
  : Py.result string :=
  match List.find (fun e => String.eqb (fst e) k) d with
  | Some e => Py.Ok (snd e)
  | None => Py.Raise (Py.KeyError k)
  end.

(** [check_executables_number(job, n)] *)
Definition check_executables (n : Z) : M bool :=
  let* j := get_job in
  let r := check_executables_number env j n in
  let* _ := put_job (snd r) in
  ret (fst r).

(** [check_manager_present(job, name)] *)
Definition check_manager (name : string) : M bool :=
  let* j := get_job in
  let r := check_manager_present env j name in
  let* _ := put_job (snd r) in
  ret (fst r).

(** Truth value of [job.success]. *)
Definition truthy (b : option bool) : bool :=
  match b with
  | Some true => true
  | _ => false
  end.

(** *** The orchestrators *)

(** The manager invocation shared by both orchestrators. *)
Definition manager_command (sandbox_feedback_dir : string) : list string :=
  ["./" ++ MANAGER_FILENAME; INPUT_FILENAME; ANSWER_FILENAME;
   sandbox_feedback_dir].

(** The pre-execution setup branch shared by both orchestrators:
    [if len(commands) > 1: trusted_step(sandbox_user[i], commands[:-1])]. *)
Definition setup_branch (sandbox_user : sandbox)
    (commands : list (list string)) : M unit :=
  if bool_decide (1 < length commands) then
    let* _ := load_global "i" in
    let* sb := sandbox_getitem sandbox_user in
    trusted_step sb (Py.but_last commands)
  else ret tt.

(** The cleanup that closes [_evaluate_interactive]. *)
Definition cleanup_interactive (sandbox_mgr sandbox_user : sandbox)
    (fifo_dir feedback_dir : string) : M unit :=
  let* j := get_job in
  let* _ := delete_sandbox sandbox_mgr (success j) (keep_sandbox j) in
  let* _ := delete_sandbox sandbox_user (success j) (keep_sandbox j) in
  if truthy (success j) && negb (config_keep_sandbox env)
     && negb (keep_sandbox j)
  then
    let* _ := rmtree fifo_dir in
    rmtree feedback_dir
  else ret tt.

(** [Kattis._evaluate_interactive] *)
Definition _evaluate_interactive : M unit :=
  let* ok := check_executables 1 in
  if negb ok then ret tt else
  let* j := get_job in
  let* executable_filename := lift (first_key (executables j)) in
  let* executable_digest :=
    lift (digest_of (executables j) executable_filename) in
  let* ok := check_manager MANAGER_FILENAME in
  if negb ok then ret tt else
  let* j := get_job in
  let* manager_digest := lift (digest_of (managers j) MANAGER_FILENAME) in
  (* Create FIFOs. *)
  let* fifo_dir := mkdtemp in
  let fifo_user_to_manager := Os.join fifo_dir "u_to_m" in
  let fifo_manager_to_user := Os.join fifo_dir "m_to_u" in
  let* _ := mkfifo fifo_user_to_manager in
  let* _ := mkfifo fifo_manager_to_user in
  let sandbox_fifo_dir := "/fifo" in
  let sandbox_fifo_user_to_manager := Os.join sandbox_fifo_dir "u_to_m" in
  let sandbox_fifo_manager_to_user := Os.join sandbox_fifo_dir "m_to_u" in
  (* Create feedback dir *)
  let* feedback_dir := mkdtemp in
  let sandbox_feedback_dir := "/feedback" in
  (* Create the manager sandbox and copy manager and input. *)
  let* sandbox_mgr := create_sandbox "manager_evaluate" in
  let* _ := sandboxes_append (get_root_path env sandbox_mgr) in
  let* _ := create_file_from_storage sandbox_mgr MANAGER_FILENAME
              manager_digest true in
  let* _ := create_file_from_storage sandbox_mgr INPUT_FILENAME
              (input j) false in
  let* _ := create_file_from_storage sandbox_mgr ANSWER_FILENAME
              (output j) false in
  (* Create the user sandbox(es) and copy the executable. *)
  let* sandbox_user := create_sandbox "user_evaluate" in
  let* _ := sandboxes_extend (get_root_path env sandbox_user) in
  let* _ := create_file_from_storage sandbox_user executable_filename
              executable_digest true in
  (* Start the manager. *)
  let manager_time_limit :=
    Py.max (PrimFloat.add (time_limit j) 1)
           (trusted_sandbox_max_time_s env) in
  let* manager :=
    evaluation_step_before_run sandbox_mgr
      (manager_command sandbox_feedback_dir)
      manager_time_limit
      (trusted_sandbox_max_memory_kib env * 1024)%Z
      [(fifo_dir, (sandbox_fifo_dir, "rw"));
       (feedback_dir, (sandbox_feedback_dir, "rw"))]
      (Some sandbox_fifo_user_to_manager)
      (Some sandbox_fifo_manager_to_user)
      (multithreaded_sandbox j) in
  (* Start the user submission compiled with the stub. *)
  let main := splitext_root executable_filename in
  let commands :=
    get_evaluation_commands env (language j) executable_filename main [] in
  let* _ := setup_branch sandbox_user commands in
  let* command := lift (Py.last_item commands) in
  let* process :=
    evaluation_step_before_run sandbox_user command
      (time_limit j) (memory_limit j)
      [(fifo_dir, (sandbox_fifo_dir, "rw"))]
      (Some sandbox_fifo_manager_to_user)
      (Some sandbox_fifo_user_to_manager)
      (multithreaded_sandbox j) in
  (* Wait for the processes to conclude, without blocking them on I/O. *)
  let* _ := wait_without_std [process; manager] in
  let* _ := _get_results feedback_dir sandbox_user sandbox_mgr in
  cleanup_interactive sandbox_mgr sandbox_user fifo_dir feedback_dir.

(** The cleanup that closes [_evaluate_noninteractive]. *)
Definition cleanup_noninteractive (sandbox_mgr sandbox_user : sandbox)
    (feedback_dir : string) : M unit :=
  let* j := get_job in
  let* _ := delete_sandbox sandbox_mgr (success j) (keep_sandbox j) in
  let* _ := delete_sandbox sandbox_user (success j) (keep_sandbox j) in
  if truthy (success j) && negb (config_keep_sandbox env)
     && negb (keep_sandbox j)
  then rmtree feedback_dir
  else ret tt.

(** [Kattis._evaluate_noninteractive] *)
Definition _evaluate_noninteractive : M unit :=
  let* ok := check_executables 1 in
  if negb ok then ret tt else
  let* j := get_job in
  let* executable_filename := lift (first_key (executables j)) in
  let* executable_digest :=
    lift (digest_of (executables j) executable_filename) in
  let* ok := check_manager MANAGER_FILENAME in
  if negb ok then ret tt else
  let* j := get_job in
  let* manager_digest := lift (digest_of (managers j) MANAGER_FILENAME) in
  let* output_dir := mkdtemp in
  let sandbox_output_dir := "/output" in
  let sandbox_output_filename := Os.join sandbox_output_dir "output.txt" in
  (* Create the user sandbox(es) and copy the executable. *)
  let* sandbox_user := create_sandbox "user_evaluate" in
  let* _ := sandboxes_extend (get_root_path env sandbox_user) in
  let* _ := create_file_from_storage sandbox_user executable_filename
              executable_digest true in
  let* _ := create_file_from_storage sandbox_user INPUT_FILENAME
              (input j) false in
  (* Start the user submission compiled with the stub. *)
  let main := splitext_root executable_filename in
  let commands :=
    get_evaluation_commands env (language j) executable_filename main [] in
  let* _ := setup_branch sandbox_user commands in
  let* command := lift (Py.last_item commands) in
  let* process :=
    evaluation_step_before_run sandbox_user command
      (time_limit j) (memory_limit j)
      [(output_dir, (sandbox_output_dir, "rw"))]
      (Some INPUT_FILENAME)
      (Some sandbox_output_filename)
      (multithreaded_sandbox j) in
  (* Wait for the processes to conclude, without blocking them on I/O. *)
  let* _ := wait_without_std [process] in
  let* feedback_dir := mkdtemp in
  let sandbox_feedback_dir := "/feedback" in
  (* Create the manager sandbox and copy manager and input. *)
  let* sandbox_mgr := create_sandbox "manager_evaluate" in
  let* _ := sandboxes_append (get_root_path env sandbox_mgr) in
  let* _ := create_file_from_storage sandbox_mgr MANAGER_FILENAME
              manager_digest true in
  let* _ := create_file_from_storage sandbox_mgr INPUT_FILENAME
              (input j) false in
  let* _ := create_file_from_storage sandbox_mgr ANSWER_FILENAME
              (output j) false in
  (* Start the manager. *)
  let manager_time_limit :=
    Py.max (PrimFloat.add (time_limit j) 1)
           (trusted_sandbox_max_time_s env) in
  let* manager :=
    evaluation_step_before_run sandbox_mgr
      (manager_command sandbox_feedback_dir)
      manager_time_limit
      (trusted_sandbox_max_memory_kib env * 1024)%Z
      [(output_dir, (sandbox_output_dir, "rw"));
       (feedback_dir, (sandbox_feedback_dir, "rw"))]
      (Some sandbox_output_filename)
      None
      (multithreaded_sandbox j) in
  let* _ := wait_without_std [manager] in
  let* _ := _get_results feedback_dir sandbox_user sandbox_mgr in
  cleanup_noninteractive sandbox_mgr sandbox_user feedback_dir.

(** [Kattis.__init__]: the mode is read from the first parameter. *)
Definition __init__ (parameters : list string) : Py.result bool :=
  match parameters with
  | p :: _ => Py.Ok (String.eqb p "interactive")
  | [] => Py.Raise Py.IndexError
  end.

(** [Kattis.evaluate], with [interactive] the value of [self.interactive] *)
Definition evaluate (interactive : bool) : M unit :=
  if interactive then _evaluate_interactive else _evaluate_noninteractive.

End WithEnv.

End Kattis.

(** ** The Kattis package loader ([cmscontrib/loaders/kattis.py]) *)

Module KattisLoader.

(** A parsed YAML document. *)
Inductive yaml : Type :=
| YNull
| YBool (b : bool)
| YInt (z : Z)
| YFloat (f : float)
| YStr (s : string)
| YSeq (items : list yaml)
| YMap (entries : list (string * yaml)).

Record Statement : Type := mkStatement {
  statement_language : string;
  statement_digest : string
}.

Record Attachment : Type := mkAttachment {
  attachment_filename : string;
  attachment_digest : string
}.

(** The keyword arguments the task record is built from. *)
Record Task : Type := mkTask {
  name : string;
  title : yaml;
  statements : option (gmap string Statement);
  submission_format : list string;
  feedback_level : string;
  score_mode : string;
  token_mode : string;
  attachments : gmap string Attachment
}.

(** What lies outside this file. *)
Record Env : Type := mkEnv {
  (* yaml.safe_load on the text of a file *)
  yaml_safe_load : string -> Py.result yaml;
  (* the digest the file cacher gives to a content *)
  digest : string -> string;
  (* constants of cms and cmscommon.constants *)
  FEEDBACK_LEVEL_RESTRICTED : string;
  SCORE_MODE_MAX_SUBTASK : string;
  TOKEN_MODE_DISABLED : string;
  (* the rest of get_task once the task record is built: limits, groups,
     test cases and the dataset *)
  load_dataset : gmap string Os.node -> string -> yaml -> Task
                 -> Py.result Task
}.

Section WithEnv.

Variable env : Env.

(** The file system the loader reads. *)
Variable fs : gmap string Os.node.

(** [load_yaml_from_path] *)
Definition load_yaml_from_path (path : string) : Py.result yaml :=
  content ← Os.read fs path;
  yaml_safe_load env content.

(** [isinstance(e, OSError)] *)
Definition is_OSError (e : Py.exn) : bool :=
  match e with
  | Py.FileNotFoundError _ | Py.IsADirectoryError _
  | Py.NotADirectoryError _ | Py.OSError _ => true
  | _ => false
  end.

(** [conf[k]] *)
Definition conf_getitem (conf : yaml) (k : string) : Py.result yaml :=
  match conf with
  | YMap entries =>
      match List.find (fun e => String.eqb (fst e) k) entries with
      | Some e => Py.Ok (snd e)
      | None => Py.Raise (Py.KeyError k)
      end
  | _ => Py.Raise Py.TypeError
  end.

(** [file_cacher.put_file_from_path(path, description)]: the file is read
    and its digest returned. *)
Definition put_file_from_path (path : string) : Py.result string :=
  content ← Os.read fs path;
  mret (digest env content).

(** A file name matches [problem.*.pdf]. *)
Definition statement_name (n : string) : bool :=
  String.prefix "problem." n
  && String.eqb (String.substring (String.length n - 4) 4 n) ".pdf"
  && bool_decide (12 ≤ String.length n)%nat.

(** [Path(path).glob("problem_statement/problem.*.pdf")]: the names of the
    matching entries; nothing when the directory is absent. *)
Definition glob_statements (path : string) : list string :=
  match Os.listdir fs (Os.join path "problem_statement") with
  | Py.Ok names => List.filter statement_name names
  | Py.Raise _ => []
  end.

(** The characters of a string up to its first dot. *)
Fixpoint up_to_dot (s : string) : string :=
  match s with
  | EmptyString => EmptyString
  | String c r => if Ascii.eqb c "." then EmptyString
                  else String c (up_to_dot r)
  end.

(** [statement_path.suffixes[0][1:]] for a name matching [problem.*.pdf] *)
Definition statement_lang (n : string) : string :=
  up_to_dot (String.substring 8 (String.length n - 8) n).

(** The loop over the statements. *)
Fixpoint load_statements (path : string) (names : list string)
    (acc : gmap string Statement) : Py.result (gmap string Statement) :=
  match names with
  | [] => mret acc
  | n :: rest =>
      let statement_path :=
        Os.join (Os.join path "problem_statement") n in
      let lang := statement_lang n in
      d ← put_file_from_path statement_path;
      load_statements path rest (<[lang := mkStatement lang d]> acc)
  end.

(** The loop over the attachments: file names come from the listing of
    [attachments], contents are read below [att]. *)
Fixpoint load_attachments (path : string) (filenames : list string)
    (acc : gmap string Attachment) : Py.result (gmap string Attachment) :=
  match filenames with
  | [] => mret acc
  | filename :: rest =>
      d ← put_file_from_path (Os.join (Os.join path "att") filename);
      load_attachments path rest
        (<[filename := mkAttachment filename d]> acc)
  end.

(** [KattisLoader.get_task] *)
Definition get_task (path : string) (get_statement : bool)
  : Py.result (option Task) :=
  let name := Os.split_tail path in
  if negb (Os.exists_ fs (Os.join path "problem.yaml"))
  then mret (None : option Task)
  else
    conf ← match load_yaml_from_path (Os.join path "problem.yaml") with
           | Py.Raise e =>
               if is_OSError e then Py.Raise (Py.NameError "err")
               else Py.Raise e
           | Py.Ok c => Py.Ok c
           end;
    title ← conf_getitem conf "name";
    sts ← (if get_statement
           then Some <$> load_statements path (glob_statements path) ∅
           else mret (None : option (gmap string Statement)));
    atts ← (if Os.exists_ fs (Os.join path "attachments")
            then filenames ← Os.listdir fs (Os.join path "attachments");
                 load_attachments path filenames ∅
            else mret (∅ : gmap string Attachment));
    let task :=
      {| name := name; title := title; statements := sts;
         submission_format := [name ++ ".%l"];
         feedback_level := FEEDBACK_LEVEL_RESTRICTED env;
         score_mode := SCORE_MODE_MAX_SUBTASK env;
         token_mode := TOKEN_MODE_DISABLED env;
         attachments := atts |} in
    Some <$> load_dataset env fs path conf task.

End WithEnv.

End KattisLoader.

(** ** Sample collaborators

    Concrete collaborators on which the statements below are exercised:
    the message catalogue and the violation messages of the grading steps,
    a decimal reader for a few literals, and processes whose behaviour is
    given by the arguments. *)

Import Kattis.

Definition sample_messages (key : string) : string :=
  if String.eqb key "success" then "Output is correct"
  else if String.eqb key "partial" then "Output is partially correct"
  else if String.eqb key "wrong" then "Output isn't correct"
  else key.

Definition sample_float_of_string (s : string) : option float :=
  if String.eqb s "0" then Some 0%float
  else if String.eqb s "0.5" then Some 0.5%float
  else if String.eqb s "1" then Some 1%float
  else None.

Definition sample_str_of_float (f : float) : string :=
  if PrimFloat.eqb f 0 then "0.0"
  else if PrimFloat.eqb f 1 then "1.0"
  else if PrimFloat.eqb f 0.5 then "0.5"
  else "?".

Definition sample_env (commands : list (list string))
    (user mgr : step_result) (mgr_writes : list (string * string * string))
  : Env :=
  {| temp_dir := "/tmp";
     trusted_sandbox_max_time_s := 10%float;
     trusted_sandbox_max_memory_kib := 4194304;
     config_keep_sandbox := false;
     EVALUATION_MESSAGES := sample_messages;
     human_evaluation_message := fun _ => ["Execution timed out"];
     float_of_string := sample_float_of_string;
     str_of_float := sample_str_of_float;
     get_evaluation_commands := fun _ _ _ _ => commands;
     check_executables_number := fun j _ => (true, j);
     check_manager_present := fun j _ => (true, j);
     get_root_path := fun sb => "/box/" ++ sandbox_name sb;
     process_writes := fun sb =>
       if String.eqb (sandbox_name sb) "manager_evaluate"
       then mgr_writes else [];
     evaluation_step_after_run := fun sb =>
       if String.eqb (sandbox_name sb) "manager_evaluate"
       then mgr else user |}.

Definition sample_job (only_exec keep : bool) : Job :=
  {| language := "C++17 / g++"; time_limit := 2%float;
     memory_limit := 268435456; input := "d-in"; output := "d-out";
     executables := [("sol", "d-exe")];
     managers := [("manager", "d-mgr")];
     sandboxes := [];
     multithreaded_sandbox := false;
     only_execution := only_exec; keep_sandbox := keep;
     success := None; outcome := None; text := None; plus := None |}.

Definition sample_world (only_exec keep : bool) : World :=
  {| fs := {[ "/tmp" := Os.Dir ]};
     job := sample_job only_exec keep;
     trace := [] |}.

(** Statistics of a process that exited with the given code. *)
Definition exited (code : Z) : stats := {[ "exit_code" := Py.VInt code ]}.

(** A process that exited with code 0 within its limits. *)
Definition clean_exit : step_result :=
  StepResult true true (Some (exited 0)).

(** A process that exited with a nonzero code: the collector flags its
    evaluation as failed. *)
Definition nonzero_exit (code : Z) : step_result :=
  StepResult true false (Some (exited code)).

(** A process killed at its time limit. *)
Definition timed_out : step_result :=
  StepResult true false (Some {[ "exit_status" := Py.VStr "timeout" ]}).

(** A sandbox that malfunctioned. *)
Definition sandbox_error : step_result := StepResult false false None.

(** A feedback directory holding a multiplier file. *)
Definition world_with_multiplier (content : string) : World :=
  {| fs := {[ "/tmp" := Os.Dir; "/tmp/fb" := Os.Dir;
              "/tmp/fb/score_multiplier.txt" := Os.File content ]};
     job := sample_job false false;
     trace := [] |}.

(** A package with a descriptor and one attachment, and no [att]
    directory. *)
Definition sample_package : gmap string Os.node :=
  {[ "/pkg" := Os.Dir;
     "/pkg/problem.yaml" := Os.File "name: Sum";
     "/pkg/data" := Os.Dir;
     "/pkg/attachments" := Os.Dir;
     "/pkg/attachments/grader.h" := Os.File "int sum(int, int);" ]}.

Definition sample_loader_env : KattisLoader.Env :=
  {| KattisLoader.yaml_safe_load := fun _ =>
       Py.Ok (KattisLoader.YMap [("name", KattisLoader.YStr "Sum")]);
     KattisLoader.digest := fun content => "sha1:" ++ content;
     KattisLoader.FEEDBACK_LEVEL_RESTRICTED := "restricted";
     KattisLoader.SCORE_MODE_MAX_SUBTASK := "max_subtask";
     KattisLoader.TOKEN_MODE_DISABLED := "disabled";
     KattisLoader.load_dataset := fun _ _ _ task => Py.Ok task |}.

(** The two sandboxes of an evaluation. *)
Definition the_manager : sandbox := Sandbox "manager_evaluate".
Definition the_user : sandbox := Sandbox "user_evaluate".

(** A solution that runs cleanly, judged by a manager that accepts. *)
Definition accepted_env : Env :=
  sample_env [["./sol"]] clean_exit (nonzero_exit 42) [].

(** The same, for a language that needs a setup command before the run. *)
Definition two_commands_env : Env :=
  sample_env [["/bin/cp"; "sol"; "sol.jar"]; ["/usr/bin/java"; "sol"]]
             clean_exit (nonzero_exit 42) [].

(** The manager accepts and leaves a multiplier file. *)
Definition multiplier_env (content : string) : Env :=
  sample_env [["./sol"]] clean_exit (nonzero_exit 42)
             [("/feedback", "score_multiplier.txt", content)].

(** The manager exits with the given code. *)
Definition manager_exit_env (user mgr : step_result) : Env :=
  sample_env [["./sol"]] user mgr [].

(** ** Vocabulary of the statements *)

(** A process is started. *)
Definition is_start (e : event) : bool :=
  match e with
  | StartProcess _ _ _ _ _ _ _ _ => true
  | _ => false
  end.

(** The user process is started. *)
Definition is_user_start (e : event) : bool :=
  match e with
  | StartProcess sb _ _ _ _ _ _ _ =>
      String.eqb (sandbox_name sb) "user_evaluate"
  | _ => false
  end.

(** Setup commands are applied. *)
Definition is_setup (e : event) : bool :=
  match e with
  | TrustedStep _ _ => true
  | _ => false
  end.

(** A computation that emits no event of the given kind. *)
Definition quiet (P : event -> bool) {A} (m : M A) : Prop :=
  forall w, List.filter P (trace (world_after m w)) = List.filter P (trace w).

(** The limits a process was started with. *)
Definition limits_of (e : event) : option (string * float * Z) :=
  match e with
  | StartProcess sb _ t m _ _ _ _ => Some (sandbox_name sb, t, m)
  | _ => None
  end.

(** ** The outcome extractor *)

Section ExtractOutcome.

Variable env : Env.

(** The extractor never changes the world. *)
Lemma extract_outcome_world st dir w :
  world_after (_extract_outcome env st dir) w = w.
Proof.
  unfold world_after, _extract_outcome, bindM, lift, ret, get_fs.
  repeat (simpl; case_match); done.
Qed.

End ExtractOutcome.

Section ExtractOutcomeVerdicts.

Variable env : Env.

(** The multiplier file of a feedback directory. *)
Local Abbreviation multiplier_file dir := (Os.join dir "score_multiplier.txt").

(** C2: with exit code 42, a multiplier file that parses to [v] in [0,1]
    makes the outcome [v], with the "partial" message when [0 < v < 1] and
    the "success" message otherwise, in particular at [v = 0] and [v = 1];
    with exit code 42 and no multiplier file the outcome is 1.0 with the
    "success" message. *)
Theorem extract_outcome_accept (st : stats) (dir : string) (w : World)
    (c : string) (v : float) :
  st !! "exit_code" = Some (Py.VInt 42) ->
  float_of_string env c = Some v ->
  PrimFloat.leb 0 v = true ->
  PrimFloat.leb v 1 = true ->
  (fs w !! multiplier_file dir = Some (Os.File c) ->
     _extract_outcome env (Some st) dir w =
       (Py.Ok (Some v,
               Some [EVALUATION_MESSAGES env
                       (if PrimFloat.ltb 0 v && PrimFloat.ltb v 1
                        then "partial" else "success")]), w)
     /\ (v = 0%float \/ v = 1%float ->
         _extract_outcome env (Some st) dir w =
           (Py.Ok (Some v, Some [EVALUATION_MESSAGES env "success"]), w)))
  /\ (Os.isfile (fs w) (multiplier_file dir) = false ->
      _extract_outcome env (Some st) dir w =
        (Py.Ok (Some 1%float, Some [EVALUATION_MESSAGES env "success"]), w)).
Proof.
  intros Hcode Hparse _ _.
  unfold _extract_outcome, subscript, Py.getitem, bindM, lift, ret, get_fs,
    Os.isfile, Os.read, py_float.
  rewrite Hcode. simpl. split.
  - intros Hfile. rewrite Hfile, Hparse.
    assert (Hval : forall b : bool,
      (if b then EVALUATION_MESSAGES env "partial"
       else EVALUATION_MESSAGES env "success") =
      EVALUATION_MESSAGES env (if b then "partial" else "success"))
      by (by intros []).
    rewrite Hval. split; [done|].
    intros [-> | ->]; reflexivity.
  - intros Hno. by rewrite Hno.
Qed.

(** C3: with exit code 43 the outcome is 0.0 with the "wrong" message,
    whatever the file system holds: the multiplier file may be present,
    with any content, and has no influence. *)
Theorem extract_outcome_reject (st : stats) (dir : string) :
  st !! "exit_code" = Some (Py.VInt 43) ->
  forall w : World,
    _extract_outcome env (Some st) dir w =
      (Py.Ok (Some 0%float, Some [EVALUATION_MESSAGES env "wrong"]), w).
Proof.
  intros Hcode w. unfold _extract_outcome, subscript, Py.getitem.
  rewrite Hcode. reflexivity.
Qed.

End ExtractOutcomeVerdicts.

(** ** The result reducer *)

Section GetResults.

Variable env : Env.
Variables (feedback_dir : string) (sandbox_user sandbox_mgr : sandbox).

Local Abbreviation r_user := (evaluation_step_after_run env sandbox_user).
Local Abbreviation r_mgr := (evaluation_step_after_run env sandbox_mgr).
Local Abbreviation reduce :=
  (_get_results env feedback_dir sandbox_user sandbox_mgr).

Ltac run_reduce :=
  unfold _get_results, collect, bindM, emit, ret, lift, get_job, put_job,
    raise, result_of, world_after, subscript, Py.getitem; simpl.

(** A sandbox malfunction, or a manager evaluation that is not ok, is
    reported as an error: nothing but the flag is filled in. *)
Lemma get_results_error (w : World) (st : stats) (code : Z) :
  step_stats r_mgr = Some st ->
  st !! "exit_code" = Some (Py.VInt code) ->
  code <> 42%Z -> code <> 43%Z ->
  box_success r_user && box_success r_mgr && evaluation_success r_mgr
    = false ->
  reduce w =
    (Py.Ok tt,
     mkWorld (fs w) (fill_results env (job w) false None None None)
             (trace w ++ [Collect sandbox_mgr; Collect sandbox_user])).
Proof.
  intros Hst Hcode H42 H43 Hbad. run_reduce.
  rewrite Hst, Hcode.
  destruct (box_success r_mgr) eqn:Hbm; simpl.
  - rewrite !bool_decide_eq_false_2 by done. simpl.
    rewrite Hbad. simpl.
    by rewrite <- !app_assoc.
  - rewrite andb_false_r. simpl. by rewrite <- !app_assoc.
Qed.

(** The flag the reducer gives the manager: exit codes 42 and 43 count as
    a successful evaluation, any other code keeps the collector's flag. *)
Lemma manager_flag (code : Z) (b : bool) :
  (code = 42%Z \/ code = 43%Z \/ b = true) ->
  (if Py.in_ints (Py.VInt code) [42; 43]%Z then true else b) = true.
Proof.
  intros [-> | [-> | ->]]; [done | done |].
  by destruct (Py.in_ints _ _).
Qed.

Lemma manager_flag_other (code : Z) (b : bool) :
  code <> 42%Z -> code <> 43%Z ->
  (if Py.in_ints (Py.VInt code) [42; 43]%Z then true else b) = b.
Proof.
  intros H42 H43. unfold Py.in_ints, Py.eq_int. simpl.
  by rewrite !bool_decide_eq_false_2.
Qed.

(** C1, as the code has it: for a manager exit code outside {42,43} the
    outcome extractor yields outcome=null and text=null; and when a sandbox
    malfunctioned or the collector reports the manager's evaluation as
    failed, the final result has success=false, outcome=null, text=null
    and the user statistics are discarded, whatever the user side did. *)
Theorem get_results_malfunction (w : World) (st : stats) (code : Z) :
  step_stats r_mgr = Some st ->
  st !! "exit_code" = Some (Py.VInt code) ->
  code <> 42%Z -> code <> 43%Z ->
  _extract_outcome env (Some st) feedback_dir w = (Py.Ok (None, None), w)
  /\ (box_success r_user && box_success r_mgr && evaluation_success r_mgr
        = false ->
      result_of reduce w = Py.Ok tt
      /\ success (job (world_after reduce w)) = Some false
      /\ outcome (job (world_after reduce w)) = None
      /\ text (job (world_after reduce w)) = None
      /\ plus (job (world_after reduce w)) = None).
Proof.
  intros Hst Hcode H42 H43. split.
  - unfold _extract_outcome, subscript, Py.getitem, bindM, lift, ret.
    rewrite Hcode. simpl.
    by rewrite !bool_decide_eq_false_2.
  - intros Hbad. unfold result_of, world_after.
    by rewrite (get_results_error w st code).
Qed.

(** The user failed while both sandboxes and the manager are fine and
    only_execution is off: the outcome is 0.0 and the text describes the
    failure. *)
Lemma get_results_user_failed (w : World) (st su : stats) (code : Z) :
  box_success r_user = true ->
  box_success r_mgr = true ->
  step_stats r_mgr = Some st ->
  st !! "exit_code" = Some (Py.VInt code) ->
  (code = 42%Z \/ code = 43%Z \/ evaluation_success r_mgr = true) ->
  evaluation_success r_user = false ->
  step_stats r_user = Some su ->
  only_execution (job w) = false ->
  reduce w =
    (Py.Ok tt,
     mkWorld (fs w)
       (fill_results env (job w) true (Some 0%float)
          (Some (human_evaluation_message env su)) (Some su))
       (trace w ++ [Collect sandbox_mgr; Collect sandbox_user])).
Proof.
  intros Hbu Hbm Hst Hcode Hmgr Huser Hsu Hexec. run_reduce.
  rewrite Hst, Hcode, Hbm, Hbu. simpl.
  pose proof (manager_flag code _ Hmgr) as Hflag.
  unfold Py.in_ints in Hflag. simpl in Hflag. rewrite Hflag. simpl.
  rewrite Hexec, Huser, Hsu. simpl. by rewrite <- !app_assoc.
Qed.

(** only_execution while both sandboxes and the manager are fine. *)
Lemma get_results_only_exec (w : World) (st : stats) (code : Z) :
  box_success r_user = true ->
  box_success r_mgr = true ->
  step_stats r_mgr = Some st ->
  st !! "exit_code" = Some (Py.VInt code) ->
  (code = 42%Z \/ code = 43%Z \/ evaluation_success r_mgr = true) ->
  only_execution (job w) = true ->
  reduce w =
    (Py.Ok tt,
     mkWorld (fs w)
       (fill_results env (job w) true (Some 0%float)
          (Some ["Execution completed successfully"]) (step_stats r_user))
       (trace w ++ [Collect sandbox_mgr; Collect sandbox_user])).
Proof.
  intros Hbu Hbm Hst Hcode Hmgr Hexec. run_reduce.
  rewrite Hst, Hcode, Hbm, Hbu. simpl.
  pose proof (manager_flag code _ Hmgr) as Hflag.
  unfold Py.in_ints in Hflag. simpl in Hflag. rewrite Hflag. simpl.
  rewrite Hexec. simpl. by rewrite <- !app_assoc.
Qed.

(** C4, as the code has it: both sandboxes fine, manager evaluation ok,
    user evaluation not ok, and only_execution not requested: the final
    result has success=true, outcome=0.0 and the text describing the
    violation; the manager's verdict is not consulted: the result is the
    same for both verdict codes and for every content of the feedback
    directory. *)
Theorem get_results_user_violation (w : World) (st su : stats) (code : Z) :
  box_success r_user = true ->
  box_success r_mgr = true ->
  step_stats r_mgr = Some st ->
  st !! "exit_code" = Some (Py.VInt code) ->
  (code = 42%Z \/ code = 43%Z \/ evaluation_success r_mgr = true) ->
  evaluation_success r_user = false ->
  step_stats r_user = Some su ->
  only_execution (job w) = false ->
  result_of reduce w = Py.Ok tt
  /\ success (job (world_after reduce w)) = Some true
  /\ outcome (job (world_after reduce w)) = Some (str_of_float env 0)
  /\ text (job (world_after reduce w))
     = Some (human_evaluation_message env su)
  /\ forall files : gmap string Os.node,
       job (world_after reduce (mkWorld files (job w) (trace w)))
       = job (world_after reduce w).
Proof.
  intros Hbu Hbm Hst Hcode Hmgr Huser Hsu Hexec.
  unfold result_of, world_after.
  rewrite (get_results_user_failed w st su code) by done.
  repeat split; try done.
  intros files.
  by rewrite (get_results_user_failed (mkWorld files (job w) (trace w))
                st su code).
Qed.

(** C6, as the code has it: in only_execution mode, when both sandboxes
    are fine and the manager's evaluation is ok, the final result has
    success=true, outcome=0.0 and the fixed text, whatever the manager's
    verdict code, the content of the feedback directory and the user's
    own evaluation flag. *)
Theorem get_results_only_execution (w : World) (st : stats) (code : Z) :
  box_success r_user = true ->
  box_success r_mgr = true ->
  step_stats r_mgr = Some st ->
  st !! "exit_code" = Some (Py.VInt code) ->
  (code = 42%Z \/ code = 43%Z \/ evaluation_success r_mgr = true) ->
  only_execution (job w) = true ->
  result_of reduce w = Py.Ok tt
  /\ success (job (world_after reduce w)) = Some true
  /\ outcome (job (world_after reduce w)) = Some (str_of_float env 0)
  /\ text (job (world_after reduce w))
     = Some ["Execution completed successfully"]
  /\ forall files : gmap string Os.node,
       job (world_after reduce (mkWorld files (job w) (trace w)))
       = job (world_after reduce w).
Proof.
  intros Hbu Hbm Hst Hcode Hmgr Hexec.
  unfold result_of, world_after.
  rewrite (get_results_only_exec w st code) by done.
  repeat split; try done.
  intros files.
  by rewrite (get_results_only_exec (mkWorld files (job w) (trace w))
                st code).
Qed.

(** A multiplier file that does not parse: [float] raises, and the
    reducer is left before any field of the job is assigned. *)
Lemma get_results_unparsable (w : World) (st : stats) (c : string) :
  box_success r_user = true ->
  box_success r_mgr = true ->
  step_stats r_mgr = Some st ->
  st !! "exit_code" = Some (Py.VInt 42) ->
  evaluation_success r_user = true ->
  only_execution (job w) = false ->
  fs w !! Os.join feedback_dir "score_multiplier.txt" = Some (Os.File c) ->
  float_of_string env c = None ->
  reduce w =
    (Py.Raise Py.ValueError,
     mkWorld (fs w) (job w)
             (trace w ++ [Collect sandbox_mgr; Collect sandbox_user])).
Proof.
  intros Hbu Hbm Hst Hcode Huser Hexec Hfile Hparse. run_reduce.
  rewrite Hst, Hcode, Hbm, Hbu. simpl.
  rewrite Hexec, Huser. simpl.
  unfold _extract_outcome, subscript, Py.getitem, bindM, lift, ret, get_fs,
    Os.isfile, Os.read, py_float.
  rewrite Hcode. simpl. rewrite Hfile, Hparse. simpl.
  by rewrite <- !app_assoc.
Qed.

End GetResults.

(** ** Events emitted by the parts of an evaluation *)

Section Quiet.

Variable P : event -> bool.

Lemma quiet_ret {A} (a : A) : quiet P (ret a).
Proof. by intros w. Qed.

Lemma quiet_raise {A} (e : Py.exn) : quiet P (@raise A e).
Proof. by intros w. Qed.

Lemma quiet_lift {A} (r : Py.result A) : quiet P (lift r).
Proof. by intros w. Qed.

Lemma quiet_get_job : quiet P get_job.
Proof. by intros w. Qed.

Lemma quiet_put_job j : quiet P (put_job j).
Proof. by intros w. Qed.

Lemma quiet_get_fs : quiet P get_fs.
Proof. by intros w. Qed.

Lemma quiet_put_fs f : quiet P (put_fs f).
Proof. by intros w. Qed.

Lemma quiet_emit e : P e = false -> quiet P (emit e).
Proof.
  intros He w. unfold world_after, emit. simpl.
  rewrite List.filter_app. simpl. rewrite He. apply app_nil_r.
Qed.

Lemma quiet_bind {A B} (m : M A) (k : A -> M B) :
  quiet P m -> (forall a, quiet P (k a)) -> quiet P (bindM m k).
Proof.
  intros Hm Hk w. specialize (Hm w). unfold world_after, bindM in *.
  destruct (m w) as [[a|e] w1]; simpl in *; [|done].
  rewrite <- Hm. apply Hk.
Qed.

End Quiet.

Create HintDb quiet.

#[local] Hint Resolve quiet_ret quiet_raise quiet_lift quiet_get_job
  quiet_put_job quiet_get_fs quiet_put_fs : quiet.

(** Splits a computation along its binds and branches. *)
Ltac quiet_steps :=
  repeat first
    [ apply quiet_bind; [|intros ?]
    | apply quiet_emit; reflexivity
    | solve [auto with quiet]
    | case_match ].

Section QuietParts.

Variable env : Env.

Lemma extract_outcome_quiet P st dir : quiet P (_extract_outcome env st dir).
Proof. intros w. by rewrite extract_outcome_world. Qed.

Lemma get_results_no_start dir su sm :
  quiet is_start (_get_results env dir su sm).
Proof.
  unfold _get_results, collect.
  quiet_steps; apply extract_outcome_quiet.
Qed.

(** The name [i] is bound nowhere. *)
Lemma load_global_i : load_global "i" = raise (Py.NameError "i").
Proof. reflexivity. Qed.

(** The setup branch either is skipped or stops at the unbound name. *)
Lemma setup_branch_eq su (commands : list (list string)) :
  setup_branch su commands =
    if bool_decide (1 < length commands)
    then raise (Py.NameError "i") else ret tt.
Proof.
  unfold setup_branch. rewrite load_global_i. by case_bool_decide.
Qed.

Lemma setup_branch_quiet P su commands : quiet P (setup_branch su commands).
Proof. rewrite setup_branch_eq. quiet_steps. Qed.

Lemma cleanup_interactive_no_start sm su fifo_dir dir :
  quiet is_start (cleanup_interactive env sm su fifo_dir dir).
Proof.
  unfold cleanup_interactive, delete_sandbox, rmtree. quiet_steps.
Qed.

Lemma cleanup_noninteractive_no_start sm su dir :
  quiet is_start (cleanup_noninteractive env sm su dir).
Proof.
  unfold cleanup_noninteractive, delete_sandbox, rmtree. quiet_steps.
Qed.

(** No part of an evaluation applies setup commands. *)
Lemma evaluate_no_setup interactive : quiet is_setup (evaluate env interactive).
Proof.
  unfold evaluate, _evaluate_interactive, _evaluate_noninteractive.
  destruct interactive.
  - unfold check_executables, check_manager, mkdtemp, mkfifo,
      create_sandbox, sandboxes_append, sandboxes_extend,
      create_file_from_storage, evaluation_step_before_run,
      wait_without_std, _get_results, collect, cleanup_interactive,
      delete_sandbox, rmtree.
    quiet_steps;
      first [apply setup_branch_quiet | apply extract_outcome_quiet].
  - unfold check_executables, check_manager, mkdtemp, mkfifo,
      create_sandbox, sandboxes_append, sandboxes_extend,
      create_file_from_storage, evaluation_step_before_run,
      wait_without_std, _get_results, collect, cleanup_noninteractive,
      delete_sandbox, rmtree.
    quiet_steps;
      first [apply setup_branch_quiet | apply extract_outcome_quiet].
Qed.

End QuietParts.

(** ** The orchestrators up to the collection of the results *)

Section Orchestrators.

Variable env : Env.

Local Abbreviation sandbox_mgr := (Sandbox "manager_evaluate").
Local Abbreviation sandbox_user := (Sandbox "user_evaluate").

(** The limits of the manager. *)
Local Abbreviation manager_time j :=
  (Py.max (PrimFloat.add (time_limit j) 1) (trusted_sandbox_max_time_s env)).
Local Abbreviation manager_memory :=
  (trusted_sandbox_max_memory_kib env * 1024)%Z.

Ltac run_prefix :=
  cbn [bindM ret raise lift get_job put_job get_fs put_fs emit mkdtemp
       mkfifo check_executables check_manager sandboxes_append
       sandboxes_extend create_sandbox create_file_from_storage
       evaluation_step_before_run wait_without_std fst snd negb
       fs job trace first_key
       language time_limit memory_limit input output executables managers
       sandboxes multithreaded_sandbox only_execution keep_sandbox
       success outcome text plus set_sandboxes].

(** The multiplier file, when it is all the manager leaves behind. *)
Local Abbreviation writes_multiplier c :=
  (process_writes env sandbox_mgr
   = [("/feedback", "score_multiplier.txt", c)]).

(** The manager's multiplier file lands in the host directory mounted at
    [/feedback]. *)
Lemma apply_writes_multiplier (p : process) (files : gmap string Os.node)
    (feedback_dir c : string) :
  process_sandbox p = sandbox_mgr ->
  writes_multiplier c ->
  host_dir (process_dirs_map p) "/feedback" = Some feedback_dir ->
  apply_writes env p files !! Os.join feedback_dir "score_multiplier.txt"
  = Some (Os.File c).
Proof.
  intros Hp Hc Hdir. unfold apply_writes. rewrite Hp, Hc.
  cbn [foldl fst snd]. rewrite Hdir. apply lookup_insert_eq.
Qed.

(** The interactive orchestrator with one evaluation command: both
    processes are started, manager first, and waited for together; what
    remains is the collection of the results and the cleanup. *)
Lemma interactive_run (w : World) (exe d md : string)
    (rest : list (string * string)) (cmd : list string) :
  check_executables_number env (job w) 1 = (true, job w) ->
  executables (job w) = (exe, d) :: rest ->
  check_manager_present env (job w) MANAGER_FILENAME = (true, job w) ->
  digest_of (managers (job w)) MANAGER_FILENAME = Py.Ok md ->
  get_evaluation_commands env (language (job w)) exe (splitext_root exe) []
    = [cmd] ->
  exists (fifo_dir feedback_dir : string) (w1 : World),
    _evaluate_interactive env w =
      bindM (_get_results env feedback_dir sandbox_user sandbox_mgr)
            (fun _ => cleanup_interactive env sandbox_mgr sandbox_user
                        fifo_dir feedback_dir) w1
    /\ omap limits_of (trace w1) =
        (omap limits_of (trace w) ++
           [("manager_evaluate", manager_time (job w), manager_memory);
            ("user_evaluate", time_limit (job w), memory_limit (job w))])%list
    /\ job w1 = set_sandboxes (job w) (sandboxes (job w1))
    /\ forall c, writes_multiplier c ->
         fs w1 !! Os.join feedback_dir "score_multiplier.txt"
         = Some (Os.File c).
Proof.
  intros Hce Hexe Hcm Hmd Hcmds.
  destruct w as [files j tr]. simpl in *.
  unfold _evaluate_interactive.
  run_prefix. rewrite Hce. run_prefix. rewrite Hexe. run_prefix.
  unfold digest_of at 1. cbn [List.find fst snd]. rewrite String.eqb_refl.
  rewrite Hcm. run_prefix. rewrite Hmd. run_prefix.
  rewrite Hcmds, setup_branch_eq. cbn [length].
  rewrite bool_decide_eq_false_2 by lia. run_prefix.
  cbn [Py.last_item last]. run_prefix.
  do 3 eexists. split; [reflexivity|]. cbn [fs job trace]. split; [|split].
  - rewrite !omap_app. simpl. by rewrite !app_nil_r, <- app_assoc.
  - reflexivity.
  - intros c Hc. cbn [foldl]. by apply apply_writes_multiplier.
Qed.

(** The non-interactive orchestrator with one evaluation command: the
    user process is started and waited for, then the manager; what remains
    is the collection of the results and the cleanup. *)
Lemma noninteractive_run (w : World) (exe d md : string)
    (rest : list (string * string)) (cmd : list string) :
  check_executables_number env (job w) 1 = (true, job w) ->
  executables (job w) = (exe, d) :: rest ->
  check_manager_present env (job w) MANAGER_FILENAME = (true, job w) ->
  digest_of (managers (job w)) MANAGER_FILENAME = Py.Ok md ->
  get_evaluation_commands env (language (job w)) exe (splitext_root exe) []
    = [cmd] ->
  exists (feedback_dir : string) (w1 : World),
    _evaluate_noninteractive env w =
      bindM (_get_results env feedback_dir sandbox_user sandbox_mgr)
            (fun _ => cleanup_noninteractive env sandbox_mgr sandbox_user
                        feedback_dir) w1
    /\ omap limits_of (trace w1) =
        (omap limits_of (trace w) ++
           [("user_evaluate", time_limit (job w), memory_limit (job w));
            ("manager_evaluate", manager_time (job w), manager_memory)])%list
    /\ job w1 = set_sandboxes (job w) (sandboxes (job w1))
    /\ forall c, writes_multiplier c ->
         fs w1 !! Os.join feedback_dir "score_multiplier.txt"
         = Some (Os.File c).
Proof.
  intros Hce Hexe Hcm Hmd Hcmds.
  destruct w as [files j tr]. simpl in *.
  unfold _evaluate_noninteractive.
  run_prefix. rewrite Hce. run_prefix. rewrite Hexe. run_prefix.
  unfold digest_of at 1. cbn [List.find fst snd]. rewrite String.eqb_refl.
  rewrite Hcm. run_prefix. rewrite Hmd. run_prefix.
  rewrite Hcmds, setup_branch_eq. cbn [length].
  rewrite bool_decide_eq_false_2 by lia. run_prefix.
  cbn [Py.last_item last]. run_prefix.
  do 2 eexists. split; [reflexivity|]. cbn [fs job trace]. split; [|split].
  - rewrite !omap_app. simpl. by rewrite !app_nil_r, <- app_assoc.
  - reflexivity.
  - intros c Hc. cbn [foldl]. by apply apply_writes_multiplier.
Qed.

(** Only the start of a process has limits. *)
Lemma limits_of_starts (l : list event) :
  omap limits_of l = omap limits_of (List.filter is_start l).
Proof.
  induction l as [|e l IH]; [done|].
  destruct e; simpl; first [exact IH | by f_equal].
Qed.

Lemma quiet_limits {A} (m : M A) (w : World) :
  quiet is_start m ->
  omap limits_of (trace (world_after m w)) = omap limits_of (trace w).
Proof.
  intros Hm. rewrite limits_of_starts, Hm. symmetry. apply limits_of_starts.
Qed.

(** C7: in both orchestrators the manager is started with the time limit
    [max(time_limit + 1.0, trusted_sandbox_max_time_s)] and the memory
    limit [trusted_sandbox_max_memory_kib * 1024], which does not mention
    the job; the user process is started with the time and memory limits
    of the job; no other process is started. *)
Theorem evaluate_limits (interactive : bool) (w : World) (exe d md : string)
    (rest : list (string * string)) (cmd : list string) :
  check_executables_number env (job w) 1 = (true, job w) ->
  executables (job w) = (exe, d) :: rest ->
  check_manager_present env (job w) MANAGER_FILENAME = (true, job w) ->
  digest_of (managers (job w)) MANAGER_FILENAME = Py.Ok md ->
  get_evaluation_commands env (language (job w)) exe (splitext_root exe) []
    = [cmd] ->
  omap limits_of (trace (world_after (evaluate env interactive) w)) =
    (omap limits_of (trace w) ++
       if interactive
       then [("manager_evaluate", manager_time (job w), manager_memory);
             ("user_evaluate", time_limit (job w), memory_limit (job w))]
       else [("user_evaluate", time_limit (job w), memory_limit (job w));
             ("manager_evaluate", manager_time (job w), manager_memory)])%list.
Proof.
  intros Hce Hexe Hcm Hmd Hcmds. destruct interactive; unfold evaluate.
  - destruct (interactive_run w exe d md rest cmd)
      as (fifo & fd & w1 & Hrun & Hlimits & _); [done..|].
    unfold world_after. rewrite Hrun, <- Hlimits.
    apply (quiet_limits (bindM _ _)). apply quiet_bind.
    + apply get_results_no_start.
    + intros _. apply cleanup_interactive_no_start.
  - destruct (noninteractive_run w exe d md rest cmd)
      as (fd & w1 & Hrun & Hlimits & _); [done..|].
    unfold world_after. rewrite Hrun, <- Hlimits.
    apply (quiet_limits (bindM _ _)). apply quiet_bind.
    + apply get_results_no_start.
    + intros _. apply cleanup_noninteractive_no_start.
Qed.

(** An evaluation that reaches the outcome extractor with exit code 42 and
    a multiplier file that does not parse is left by the [ValueError] of
    [float], before any result field of the job is assigned. *)
Lemma evaluate_stops_at_multiplier (interactive : bool) (w : World)
    (exe d md : string) (rest : list (string * string)) (cmd : list string)
    (st : stats) (c : string) :
  check_executables_number env (job w) 1 = (true, job w) ->
  executables (job w) = (exe, d) :: rest ->
  check_manager_present env (job w) MANAGER_FILENAME = (true, job w) ->
  digest_of (managers (job w)) MANAGER_FILENAME = Py.Ok md ->
  get_evaluation_commands env (language (job w)) exe (splitext_root exe) []
    = [cmd] ->
  box_success (evaluation_step_after_run env sandbox_user) = true ->
  evaluation_success (evaluation_step_after_run env sandbox_user) = true ->
  box_success (evaluation_step_after_run env sandbox_mgr) = true ->
  step_stats (evaluation_step_after_run env sandbox_mgr) = Some st ->
  st !! "exit_code" = Some (Py.VInt 42) ->
  only_execution (job w) = false ->
  writes_multiplier c ->
  float_of_string env c = None ->
  result_of (evaluate env interactive) w = Py.Raise Py.ValueError
  /\ success (job (world_after (evaluate env interactive) w))
     = success (job w)
  /\ outcome (job (world_after (evaluate env interactive) w))
     = outcome (job w)
  /\ text (job (world_after (evaluate env interactive) w)) = text (job w)
  /\ plus (job (world_after (evaluate env interactive) w)) = plus (job w).
Proof.
  intros Hce Hexe Hcm Hmd Hcmds Hbu Heu Hbm Hst Hcode Hexec Hc Hparse.
  assert (Hstop : exists dir w1 k,
    evaluate env interactive w =
      bindM (_get_results env dir sandbox_user sandbox_mgr) k w1
    /\ job w1 = set_sandboxes (job w) (sandboxes (job w1))
    /\ fs w1 !! Os.join dir "score_multiplier.txt" = Some (Os.File c)).
  { destruct interactive; unfold evaluate.
    - destruct (interactive_run w exe d md rest cmd)
        as (fifo & fd & w1 & Hrun & _ & Hjob & Hfile); [done..|].
      exists fd, w1. eexists. split; [exact Hrun|]. split; [done|].
      by apply Hfile.
    - destruct (noninteractive_run w exe d md rest cmd)
        as (fd & w1 & Hrun & _ & Hjob & Hfile); [done..|].
      exists fd, w1. eexists. split; [exact Hrun|]. split; [done|].
      by apply Hfile. }
  destruct Hstop as (dir & w1 & k & Hrun & Hjob & Hfile).
  unfold result_of, world_after. rewrite Hrun. unfold bindM.
  rewrite (get_results_unparsable env dir sandbox_user sandbox_mgr w1 st c);
    try done.
  - cbn [fst snd job]. rewrite Hjob. done.
  - rewrite Hjob. exact Hexec.
Qed.

(** C8, as the code has it: with exit code 42 and a multiplier file on
    whose content [float] raises [ValueError], the outcome extractor raises
    that error instead of returning an outcome; an evaluation, in either
    mode, that consults the extractor on it (both sandboxes fine, user
    evaluation ok, only_execution not requested) is left by that uncaught
    exception: no outcome is produced (in particular none is set to 1.0)
    and no result field of the job is assigned: success, outcome, text
    and statistics are left as they were, success is not set to false. *)
Theorem evaluate_unparsable_multiplier (st : stats) (c : string) :
  st !! "exit_code" = Some (Py.VInt 42) ->
  float_of_string env c = None ->
  (forall (dir : string) (w : World),
     fs w !! Os.join dir "score_multiplier.txt" = Some (Os.File c) ->
     _extract_outcome env (Some st) dir w = (Py.Raise Py.ValueError, w))
  /\ (forall (interactive : bool) (w : World) (exe d md : string)
        (rest : list (string * string)) (cmd : list string),
      check_executables_number env (job w) 1 = (true, job w) ->
      executables (job w) = (exe, d) :: rest ->
      check_manager_present env (job w) MANAGER_FILENAME = (true, job w) ->
      digest_of (managers (job w)) MANAGER_FILENAME = Py.Ok md ->
      get_evaluation_commands env (language (job w)) exe
        (splitext_root exe) [] = [cmd] ->
      box_success (evaluation_step_after_run env sandbox_user) = true ->
      evaluation_success (evaluation_step_after_run env sandbox_user)
        = true ->
      box_success (evaluation_step_after_run env sandbox_mgr) = true ->
      step_stats (evaluation_step_after_run env sandbox_mgr) = Some st ->
      only_execution (job w) = false ->
      writes_multiplier c ->
      result_of (evaluate env interactive) w = Py.Raise Py.ValueError
      /\ success (job (world_after (evaluate env interactive) w))
         = success (job w)
      /\ outcome (job (world_after (evaluate env interactive) w))
         = outcome (job w)
      /\ text (job (world_after (evaluate env interactive) w))
         = text (job w)
      /\ plus (job (world_after (evaluate env interactive) w))
         = plus (job w)).
Proof.
  intros Hcode Hparse. split.
  - intros dir w Hfile.
    unfold _extract_outcome, subscript, Py.getitem, bindM, lift, ret,
      get_fs, Os.isfile, Os.read, py_float.
    rewrite Hcode. simpl. by rewrite Hfile, Hparse.
  - intros interactive w exe d md rest cmd Hce Hexe Hcm Hmd Hcmds
      Hbu Heu Hbm Hst Hexec Hc.
    by apply (evaluate_stops_at_multiplier interactive w exe d md rest cmd
                st c).
Qed.

(** C9: in both orchestrators, when the language has more than one
    evaluation command the setup branch stops at the unbound index [i]:
    the evaluation is left by a [NameError] and the user process is not
    started; and no evaluation, whatever its commands, ever applies setup
    commands. *)
Theorem evaluate_setup_branch (interactive : bool) (w : World)
    (exe d md : string) (rest : list (string * string)) :
  check_executables_number env (job w) 1 = (true, job w) ->
  executables (job w) = (exe, d) :: rest ->
  check_manager_present env (job w) MANAGER_FILENAME = (true, job w) ->
  digest_of (managers (job w)) MANAGER_FILENAME = Py.Ok md ->
  1 < length (get_evaluation_commands env (language (job w)) exe
                (splitext_root exe) []) ->
  result_of (evaluate env interactive) w = Py.Raise (Py.NameError "i")
  /\ List.filter is_user_start
       (trace (world_after (evaluate env interactive) w))
     = List.filter is_user_start (trace w)
  /\ forall (mode : bool) (w0 : World),
       List.filter is_setup (trace (world_after (evaluate env mode) w0))
       = List.filter is_setup (trace w0).
Proof.
  intros Hce Hexe Hcm Hmd Hlen.
  split; [|split; [|intros mode w0; apply evaluate_no_setup]].
  - destruct w as [files j tr]. simpl in *.
    destruct interactive;
      unfold result_of, evaluate, _evaluate_interactive,
        _evaluate_noninteractive;
      run_prefix; rewrite Hce; run_prefix; rewrite Hexe; run_prefix;
      unfold digest_of at 1; cbn [List.find fst snd];
      rewrite String.eqb_refl, Hcm; run_prefix; rewrite Hmd; run_prefix;
      rewrite setup_branch_eq, bool_decide_eq_true_2 by done;
      reflexivity.
  - destruct w as [files j tr]. simpl in *.
    destruct interactive;
      unfold world_after, evaluate, _evaluate_interactive,
        _evaluate_noninteractive;
      run_prefix; rewrite Hce; run_prefix; rewrite Hexe; run_prefix;
      unfold digest_of at 1; cbn [List.find fst snd];
      rewrite String.eqb_refl, Hcm; run_prefix; rewrite Hmd; run_prefix;
      rewrite setup_branch_eq, bool_decide_eq_true_2 by done;
      run_prefix; rewrite !List.filter_app; simpl;
      by rewrite !app_nil_r.
Qed.

End Orchestrators.

(** ** The attachments of a package *)

Section Attachments.

Variable env : KattisLoader.Env.
Variable files : gmap string Os.node.

Lemma listdir_exists (d : string) (names : list string) :
  Os.listdir files d = Py.Ok names -> Os.exists_ files d = true.
Proof.
  unfold Os.listdir, Os.exists_. intros H.
  apply bool_decide_eq_true_2.
  destruct (files !! d); [by eexists | done].
Qed.

(** C10: when the package has an [attachments] directory with at least
    one entry, [get_task] takes the file names from [attachments] and reads
    the contents from [att/<filename>]; if that file does not exist (the
    package has no [att] directory), loading fails with a file-not-found
    error and nothing is attached. *)
Theorem get_task_attachments_missing (path : string) (get_statement : bool)
    (conf title : KattisLoader.yaml)
    (sts : option (gmap string KattisLoader.Statement))
    (filename : string) (others : list string) :
  Os.exists_ files (Os.join path "problem.yaml") = true ->
  KattisLoader.load_yaml_from_path env files (Os.join path "problem.yaml")
    = Py.Ok conf ->
  KattisLoader.conf_getitem conf "name" = Py.Ok title ->
  (if get_statement
   then Some <$> KattisLoader.load_statements env files path
                   (KattisLoader.glob_statements files path) ∅
   else Py.Ok None) = Py.Ok sts ->
  Os.listdir files (Os.join path "attachments")
    = Py.Ok (filename :: others) ->
  files !! Os.join (Os.join path "att") filename = None ->
  KattisLoader.get_task env files path get_statement
  = Py.Raise (Py.FileNotFoundError (Os.join (Os.join path "att") filename)).
Proof.
  intros Hyaml Hconf Htitle Hsts Hlist Hmissing.
  unfold KattisLoader.get_task.
  rewrite Hyaml, Hconf. simpl. unfold mbind, result_bind. simpl.
  rewrite Htitle. simpl.
  assert (Hs : (if get_statement
     then Some <$> KattisLoader.load_statements env files path
                     (KattisLoader.glob_statements files path) ∅
     else mret None) = Py.Ok sts) by exact Hsts.
  rewrite Hs. simpl.
  rewrite (listdir_exists _ _ Hlist), Hlist. simpl.
  unfold KattisLoader.put_file_from_path, Os.read, mbind, result_bind.
  by rewrite Hmissing.
Qed.

End Attachments.

(** ** Worked evaluations *)

(** C5, evaluated: a successful non-interactive evaluation with no
    retention requested removes the feedback directory and leaves the
    output directory on disk. *)
Theorem noninteractive_leaves_output_dir :
  let w := world_after (evaluate accepted_env false)
                       (sample_world false false) in
  result_of (evaluate accepted_env false) (sample_world false false)
  = Py.Ok tt
  /\ success (job w) = Some true
  /\ config_keep_sandbox accepted_env = false
  /\ keep_sandbox (job w) = false
  /\ In (StartProcess the_user ["./sol"] 2%float 268435456
           [("/tmp/tmp0", ("/output", "rw"))]
           (Some "input.txt") (Some "/output/output.txt") false)
        (trace w)
  /\ fs w = {[ "/tmp" := Os.Dir; "/tmp/tmp0" := Os.Dir ]}.
Proof.
  vm_compute. repeat split; try reflexivity.
  do 3 right. left. reflexivity.
Qed.

(** The interactive orchestrator, in the same situation, removes both of
    its directories. *)
Lemma interactive_removes_directories :
  let w := world_after (evaluate accepted_env true)
                       (sample_world false false) in
  success (job w) = Some true /\ fs w = {[ "/tmp" := Os.Dir ]}.
Proof.
  vm_compute. repeat split; reflexivity.
Qed.

(** With retention requested, or after a failed evaluation, every
    directory stays. *)
Lemma retention_keeps_directories :
  fs (world_after (evaluate accepted_env false) (sample_world false true))
  = {[ "/tmp" := Os.Dir; "/tmp/tmp0" := Os.Dir; "/tmp/tmp1" := Os.Dir ]}
  /\ fs (world_after (evaluate (manager_exit_env clean_exit sandbox_error)
                               true)
                     (sample_world false false))
     = {[ "/tmp" := Os.Dir; "/tmp/tmp0" := Os.Dir;
          "/tmp/tmp0/u_to_m" := Os.Fifo; "/tmp/tmp0/m_to_u" := Os.Fifo;
          "/tmp/tmp1" := Os.Dir ]}.
Proof.
  vm_compute. repeat split; reflexivity.
Qed.

(** *** The statements above on concrete evaluations *)

(** C2 at the multiplier 0.5: the "partial" message. *)
Lemma extract_outcome_accept_half :
  _extract_outcome (multiplier_env "0.5") (Some (exited 42)) "/tmp/fb"
                   (world_with_multiplier "0.5")
  = (Py.Ok (Some 0.5%float, Some ["Output is partially correct"]),
     world_with_multiplier "0.5").
Proof.
  destruct (extract_outcome_accept (multiplier_env "0.5") (exited 42)
              "/tmp/fb" (world_with_multiplier "0.5") "0.5" 0.5%float)
    as [Hfile _]; [reflexivity..|].
  destruct Hfile as [Hval _]; [reflexivity|]. exact Hval.
Defined.

(** C3 with a multiplier file present: it has no influence. *)
Lemma extract_outcome_reject_with_file :
  _extract_outcome (multiplier_env "0.5") (Some (exited 43)) "/tmp/fb"
                   (world_with_multiplier "0.5")
  = (Py.Ok (Some 0%float, Some ["Output isn't correct"]),
     world_with_multiplier "0.5").
Proof.
  apply (extract_outcome_reject (multiplier_env "0.5") (exited 43) "/tmp/fb").
  reflexivity.
Defined.

(** C1 at a manager that exits with code 1. *)
Lemma get_results_malfunction_exit_1 :
  success (job (world_after
    (_get_results (manager_exit_env clean_exit (nonzero_exit 1)) "/tmp/fb"
                  the_user the_manager)
    (sample_world false false))) = Some false.
Proof.
  destruct (get_results_malfunction
              (manager_exit_env clean_exit (nonzero_exit 1)) "/tmp/fb"
              the_user the_manager (sample_world false false) (exited 1) 1)
    as [_ Herr]; [reflexivity | reflexivity | done | done |].
  destruct Herr as (_ & Hsuccess & _); [reflexivity|]. exact Hsuccess.
Defined.

(** C1 as stated fails at a manager that exits with code 0, which the
    collector reports as a successful evaluation: the job is marked as a
    success and the user statistics are kept. *)
Lemma get_results_clean_manager_exit :
  let w := world_after
    (_get_results (manager_exit_env clean_exit clean_exit) "/tmp/fb"
                  the_user the_manager)
    (sample_world false false) in
  Py.in_ints (Py.VInt 0) [42; 43]%Z = false
  /\ success (job w) = Some true
  /\ outcome (job w) = None
  /\ text (job w) = None
  /\ plus (job w) = Some (exited 0).
Proof.
  vm_compute. repeat split; reflexivity.
Qed.

(** C4 at a user process that timed out. *)
Lemma get_results_user_violation_timeout :
  text (job (world_after
    (_get_results (manager_exit_env timed_out (nonzero_exit 42)) "/tmp/fb"
                  the_user the_manager)
    (sample_world false false))) = Some ["Execution timed out"].
Proof.
  destruct (get_results_user_violation
              (manager_exit_env timed_out (nonzero_exit 42)) "/tmp/fb"
              the_user the_manager (sample_world false false) (exited 42)
              {[ "exit_status" := Py.VStr "timeout" ]} 42)
    as (_ & _ & _ & Htext & _);
    [reflexivity | reflexivity | reflexivity | reflexivity | by left
    | reflexivity | reflexivity | reflexivity |].
  exact Htext.
Defined.

(** C4 as stated fails in only_execution mode: the user process timed out,
    both sandboxes and the manager are fine, and the text is the fixed
    message instead of the description of the violation. *)
Lemma get_results_user_violation_only_execution :
  let env := manager_exit_env timed_out (nonzero_exit 42) in
  let w := world_after (_get_results env "/tmp/fb" the_user the_manager)
                       (sample_world true false) in
  box_success (evaluation_step_after_run env the_user) = true
  /\ box_success (evaluation_step_after_run env the_manager) = true
  /\ evaluation_success (evaluation_step_after_run env the_user) = false
  /\ text (job w) = Some ["Execution completed successfully"]
  /\ text (job w)
     <> Some (human_evaluation_message env
                {[ "exit_status" := Py.VStr "timeout" ]}).
Proof.
  vm_compute. repeat split; try reflexivity. discriminate.
Qed.

(** C6 at a user process that timed out. *)
Lemma get_results_only_execution_timeout :
  outcome (job (world_after
    (_get_results (manager_exit_env timed_out (nonzero_exit 43)) "/tmp/fb"
                  the_user the_manager)
    (sample_world true false))) = Some "0.0".
Proof.
  destruct (get_results_only_execution
              (manager_exit_env timed_out (nonzero_exit 43)) "/tmp/fb"
              the_user the_manager (sample_world true false) (exited 43) 43)
    as (_ & _ & Houtcome & _);
    [reflexivity | reflexivity | reflexivity | reflexivity
    | by right; left | reflexivity |].
  exact Houtcome.
Defined.

(** C6 as stated fails when the manager exits with a code that is no
    verdict: in only_execution mode the job is then reported as an error,
    with no outcome. *)
Lemma get_results_only_execution_manager_failed :
  let w := world_after
    (_get_results (manager_exit_env clean_exit (nonzero_exit 1)) "/tmp/fb"
                  the_user the_manager)
    (sample_world true false) in
  only_execution (job (sample_world true false)) = true
  /\ success (job w) = Some false
  /\ outcome (job w) = None
  /\ text (job w) = None.
Proof.
  vm_compute. repeat split; reflexivity.
Qed.

(** C7 on an interactive evaluation: time limit 2 s for the user, the
    trusted maximum of 10 s for the manager, which exceeds 2 + 1. *)
Lemma evaluate_limits_interactive :
  omap limits_of
    (trace (world_after (evaluate accepted_env true)
                        (sample_world false false)))
  = [("manager_evaluate", 10%float, 4294967296%Z);
     ("user_evaluate", 2%float, 268435456%Z)].
Proof.
  exact (evaluate_limits accepted_env true (sample_world false false)
           "sol" "d-exe" "d-mgr" [] ["./sol"]
           eq_refl eq_refl eq_refl eq_refl eq_refl).
Defined.

(** C8 on a non-interactive evaluation whose manager leaves a multiplier
    file that is no number. *)
Lemma evaluate_unparsable_multiplier_text :
  result_of (evaluate (multiplier_env "high") false)
            (sample_world false false)
  = Py.Raise Py.ValueError.
Proof.
  destruct (evaluate_unparsable_multiplier (multiplier_env "high")
              (exited 42) "high") as [_ Hrun]; [reflexivity..|].
  destruct (Hrun false (sample_world false false) "sol" "d-exe" "d-mgr" []
              ["./sol"]) as [Hraise _]; [reflexivity..|].
  exact Hraise.
Defined.

(** C8 as stated fails on the success flag: on a fresh job, in both modes,
    the manager exits with code 42 and leaves a multiplier file that is no
    number; the evaluation is left by the [ValueError] and the job's
    success flag is still unset: it has not been set to false, and no
    other result field has been written. *)
Lemma evaluate_unparsable_multiplier_success_unset :
  let w mode := world_after (evaluate (multiplier_env "high") mode)
                            (sample_world false false) in
  float_of_string (multiplier_env "high") "high" = None
  /\ result_of (evaluate (multiplier_env "high") false)
               (sample_world false false) = Py.Raise Py.ValueError
  /\ result_of (evaluate (multiplier_env "high") true)
               (sample_world false false) = Py.Raise Py.ValueError
  /\ success (job (w false)) = None
  /\ success (job (w true)) = None
  /\ success (job (w false)) <> Some false
  /\ success (job (w true)) <> Some false
  /\ outcome (job (w false)) = None
  /\ outcome (job (w true)) = None.
Proof.
  vm_compute. repeat split; try reflexivity; discriminate.
Qed.

(** C9 on a language with a setup command before the run. *)
Lemma evaluate_setup_branch_two_commands :
  result_of (evaluate two_commands_env true) (sample_world false false)
  = Py.Raise (Py.NameError "i").
Proof.
  destruct (evaluate_setup_branch two_commands_env true
              (sample_world false false) "sol" "d-exe" "d-mgr" [])
    as [Hraise _];
    [reflexivity | reflexivity | reflexivity | reflexivity
    | simpl; lia |].
  exact Hraise.
Defined.

(** C10 on a package with an [attachments] directory and no [att]
    directory. *)
Lemma get_task_attachments_missing_package :
  KattisLoader.get_task sample_loader_env sample_package "/pkg" true
  = Py.Raise (Py.FileNotFoundError "/pkg/att/grader.h").
Proof.
  exact (get_task_attachments_missing sample_loader_env sample_package
           "/pkg" true
           (KattisLoader.YMap [("name", KattisLoader.YStr "Sum")])
           (KattisLoader.YStr "Sum") (Some ∅) "grader.h" []
           eq_refl eq_refl eq_refl eq_refl eq_refl eq_refl).
Defined.
